(** * files_finder_by_date: a shallow embedding of [FilesFinderByDate]

    The class [FilesFinderByDate] of [files_finder_by_date.py] is embedded
    as follows.
    - [__init__] becomes [init], a function into [result finder]: it
      fails with [ValueError] where [datetime.strptime] raises.
    - [_walker] becomes [walker], over the list of files that [os.walk]
      yields (each with the answer of [os.path.exists] and its three
      timestamps) and over the report file system [fs].
    - [_sorter] becomes [sorter].
    - [find_files] becomes [find_files]; [run] constructs the object and
      then calls [find_files] on it.

    Report files are modelled as a map from paths to contents. Opening
    with ['w'] replaces the contents; opening with ['a'] appends, and
    creates the file when it is missing. The library functions the code
    calls ([strptime], [datetime.timestamp], [time.ctime], [str] of a
    datetime) are section variables. Timestamps are taken as integers;
    the code only compares them, so this abstracts the floats. *)

From Stdlib Require Import String Ascii List ZArith Bool Lia.
From Stdlib Require Import Sorting.Sorted Sorting.Permutation.
Import ListNotations.

Local Open Scope Z_scope.

(** ** Python values *)

(** A [datetime.datetime]: the proleptic day ordinal and the time of day.
    [datetime - timedelta(days=k)] moves the ordinal only. *)
Record datetime := mkDatetime {
  ordinal : Z; hour : Z; minute : Z; second : Z; microsecond : Z
}.

Definition sub_days (d : datetime) (k : Z) : datetime :=
  {| ordinal := ordinal d - k; hour := hour d; minute := minute d;
     second := second d; microsecond := microsecond d |}.

(** [d.replace(hour=h, minute=mi, second=s, microsecond=us)] *)
Definition replace_hmsu (d : datetime) (h mi s us : Z) : datetime :=
  {| ordinal := ordinal d; hour := h; minute := mi; second := s;
     microsecond := us |}.

(** [d.replace(hour=h, minute=mi, second=s)]: the microsecond is kept. *)
Definition replace_hms (d : datetime) (h mi s : Z) : datetime :=
  {| ordinal := ordinal d; hour := h; minute := mi; second := s;
     microsecond := microsecond d |}.

(** The exceptions the modelled code can raise. *)
Inductive py_error := ValueError | AttributeError.

Inductive result (A : Type) :=
| Ok (a : A)
| Err (e : py_error).
Arguments Ok {A} a.
Arguments Err {A} e.

(** ** Strings: [str.lower], [str.startswith], [os.path.splitext] *)

(** [str.lower] on ASCII characters. *)
Definition ascii_lower (c : ascii) : ascii :=
  let n := nat_of_ascii c in
  if (65 <=? n)%nat && (n <=? 90)%nat then ascii_of_nat (n + 32) else c.

Fixpoint py_lower (s : string) : string :=
  match s with
  | EmptyString => EmptyString
  | String c s' => String (ascii_lower c) (py_lower s')
  end.

Definition startswith (s pre : string) : bool := String.prefix pre s.

(** The last path component: what follows the last ['/']. *)
Definition last_component (l : list ascii) : list ascii :=
  fold_left (fun acc c => if Ascii.eqb c "/"%char then [] else (acc ++ [c])%list)
    l [].

Fixpoint strip_leading_dots (l : list ascii) : list ascii :=
  match l with
  | c :: t => if Ascii.eqb c "."%char then strip_leading_dots t else l
  | [] => []
  end.

(** The suffix that starts at the last ['.'], empty if there is none. *)
Definition from_last_dot (l : list ascii) : list ascii :=
  fold_left (fun acc c =>
      if Ascii.eqb c "."%char then [c]
      else match acc with [] => [] | _ => (acc ++ [c])%list end)
    l [].

(** [os.path.splitext(p)[1]] (posixpath): the extension is taken from the
    last component, from its last dot, leading dots of the component not
    counting as an extension separator. *)
Definition splitext_ext (p : string) : string :=
  string_of_list_ascii
    (from_last_dot (strip_leading_dots (last_component (list_ascii_of_string p)))).

(** [os.path.join(a, b)] for two components. *)
Definition ends_with_slash (s : string) : bool :=
  match rev (list_ascii_of_string s) with
  | c :: _ => Ascii.eqb c "/"%char
  | [] => false
  end.

Definition py_join (a b : string) : string :=
  if startswith b "/" then b
  else if String.eqb a "" || ends_with_slash a then (a ++ b)%string
  else (a ++ "/" ++ b)%string.

(** [s[:-n]] *)
Definition py_drop_last (n : nat) (s : string) : string :=
  String.substring 0 (String.length s - n) s.

(** ** Extension normalisation (lines 106-109) *)

Definition normalize_ext (ext : string) : string :=
  ((if negb (startswith ext ".") then "." else "") ++ py_lower ext)%string.

(** ** The finder object *)

(** [f_extensions] is [None] when the attribute [_extensions] was never
    assigned (line 106 only assigns it when [extensions] is truthy). *)
Record finder := mkFinder {
  f_root : option string;
  f_output_info_to : option string;
  f_start_date : datetime;
  f_end_date : datetime;
  f_sort_info : bool;
  f_extensions : option (list string)
}.

(** One match record, the tuple [(file_path, mtime, ctime, atime)]:
    fields 0, 1, 2 and 3. *)
Record mrec := mkRec { r_path : string; r_mtime : Z; r_ctime : Z; r_atime : Z }.

(** One file yielded by [os.walk]: its joined path, whether
    [os.path.exists] holds for it when it is reached, and its timestamps. *)
Record entry := mkEntry {
  e_path : string; e_exists : bool; e_mtime : Z; e_ctime : Z; e_atime : Z
}.

(** The newline character. *)
Definition nl : string := String (ascii_of_nat 10) EmptyString.

(** Report files: path to contents. *)
Definition fs := string -> option string.

Definition fs_exists (m : fs) (p : string) : bool :=
  match m p with Some _ => true | None => false end.

Definition fs_set (m : fs) (p c : string) : fs :=
  fun q => if String.eqb q p then Some c else m q.

(** [open(p, 'w').write(s)] *)
Definition write_w (m : fs) (p s : string) : fs := fs_set m p s.

(** [open(p, 'a').write(s)] *)
Definition write_a (m : fs) (p s : string) : fs :=
  fs_set m p (match m p with Some c => (c ++ s)%string | None => s end).

Definition contents (m : fs) (p : string) : string :=
  match m p with Some c => c | None => "" end.

(** ** Sample library functions and inputs

    Concrete stand-ins for the library functions, used to run the model
    on small inputs: [strptime] accepts one date, [timestamp] counts
    seconds from the Unix epoch in UTC, [time.ctime] tells two instants
    apart. *)

Definition sample_strptime (s fmt : string) : option datetime :=
  if String.eqb s "2022-01-14" then Some (mkDatetime 738169 0 0 0 0) else None.

Definition sample_timestamp (d : datetime) : Z :=
  (ordinal d - 719163) * 86400 + hour d * 3600 + minute d * 60 + second d.

Definition sample_ctime (t : Z) : string := if t =? 100 then "A"%string else "B"%string.

Definition sample_dt_str (d : datetime) : string := "2022-01-14 00:00:00"%string.

(** 2022-01-14 10:30:00.000005 *)
Definition sample_now : datetime := mkDatetime 738169 10 30 0 5.

Definition empty_fs : fs := fun _ => None.

(** A finder with the window from the epoch to one day later. *)
Definition sample_finder (sort : bool) (exts : option (list string)) : finder :=
  {| f_root := None; f_output_info_to := None;
     f_start_date := mkDatetime 719163 0 0 0 0;
     f_end_date := mkDatetime 719164 0 0 0 0;
     f_sort_info := sort; f_extensions := exts |}.

(** A finder whose window ends one day before it starts. *)
Definition sample_reversed_finder : finder :=
  {| f_root := None; f_output_info_to := None;
     f_start_date := mkDatetime 719164 0 0 0 0;
     f_end_date := mkDatetime 719163 0 0 0 0;
     f_sort_info := false; f_extensions := Some [".txt"%string] |}.

Definition sample_entry : entry := mkEntry "docs/a.txt" true 100 0 0.

Definition sample_recs : list mrec :=
  [mkRec "b"%string 5 2 0; mkRec "a"%string 5 2 0; mkRec "c"%string 1 1 9; mkRec "d"%string 0 2 0].

Definition fs_with_table : fs :=
  fs_set empty_fs "/out/founded_table.txt"%string "old run"%string.

Section Finder.

(** [datetime.strptime(date_string, format)], [None] where it raises. *)
Variable strptime : string -> string -> option datetime.
(** [datetime.timestamp()] *)
Variable timestamp : datetime -> Z.
(** [time.ctime(t)] *)
Variable time_ctime : Z -> string.
(** [str(d)] of a datetime, used in f-strings. *)
Variable dt_str : datetime -> string.

(** Line 94. *)
Definition date_format (include_time : bool) : string :=
  if negb include_time then "%Y-%m-%d"%string else "%Y-%m-%d %H:%M:%S"%string.

(** Lines 95-101: [strptime] if the argument is truthy, else the
    default. *)
Definition parse_or (date_format : string) (o : option string)
    (dflt : datetime) : result datetime :=
  match o with
  | Some s =>
      if String.eqb s "" then Ok dflt
      else match strptime s date_format with
           | Some d => Ok d
           | None => Err ValueError
           end
  | None => Ok dflt
  end.

(** [__init__]; [now_start] and [now_end] are the two calls of
    [datetime.datetime.now()] (lines 97 and 101). *)
Definition init (now_start now_end : datetime) (root start_date end_date : option string)
    (include_time : bool) (output_info_to : option string)
    (extensions : option (list string)) (sort_info : bool) : result finder :=
  match parse_or (date_format include_time) start_date
          (replace_hmsu (sub_days now_start 7) 0 0 0 0) with
  | Err e => Err e
  | Ok start =>
      match parse_or (date_format include_time) end_date now_end with
      | Err e => Err e
      | Ok end0 =>
          let end1 := if negb include_time then replace_hms end0 23 59 59 else end0 in
          let exts := match extensions with
                      | Some ((_ :: _) as l) => Some (map normalize_ext l)
                      | _ => None
                      end in
          Ok {| f_root := root; f_output_info_to := output_info_to;
                f_start_date := start; f_end_date := end1;
                f_sort_info := sort_info; f_extensions := exts |}
      end
  end.

(** ** [_walker] (lines 111-142) *)

(** [start_date < t < end_date] *)
Definition in_window (start_ts end_ts t : Z) : bool := (start_ts <? t) && (t <? end_ts).

(** Line 131-133. *)
Definition date_match (start_ts end_ts : Z) (e : entry) : bool :=
  in_window start_ts end_ts (e_mtime e) || in_window start_ts end_ts (e_ctime e)
  || in_window start_ts end_ts (e_atime e).

(** The negation of the skip test of line 129 for a configured set. *)
Definition ext_accepted (exts : list string) (file_ext : string) : bool :=
  negb ((match exts with [] => false | _ => true end)
        && negb (existsb (String.eqb file_ext) exts)).

(** Lines 138-141. *)
Definition primary_line (r : mrec) : string :=
  ("file=" ++ r_path r ++ " | " ++
   "mtime=" ++ time_ctime (r_mtime r) ++ " | " ++
   "ctime=" ++ time_ctime (r_ctime r) ++ " | " ++
   "atime=" ++ time_ctime (r_atime r) ++ nl)%string.

Definition rec_of (e : entry) : mrec :=
  {| r_path := e_path e; r_mtime := e_mtime e; r_ctime := e_ctime e;
     r_atime := e_atime e |}.

(** The loop of lines 117-141, with [files_founded], [files_list] and the
    report file system as its state. Reading [self._extensions] when it
    was never assigned raises [AttributeError]. *)
Fixpoint walk_loop (self : finder) (start_ts end_ts : Z) (write_file : string)
    (es : list entry) (n : nat) (l : list mrec) (m : fs)
    : result (nat * list mrec) * fs :=
  match es with
  | [] => (Ok (n, l), m)
  | e :: es' =>
      if negb (e_exists e) then walk_loop self start_ts end_ts write_file es' n l m
      else
        let file_ext := py_lower (splitext_ext (e_path e)) in
        match f_extensions self with
        | None => (Err AttributeError, m)
        | Some exts =>
            if negb (ext_accepted exts file_ext) then
              walk_loop self start_ts end_ts write_file es' n l m
            else if date_match start_ts end_ts e then
              let l' := if f_sort_info self then (l ++ [rec_of e])%list else l in
              walk_loop self start_ts end_ts write_file es' (S n) l'
                (write_a m write_file (primary_line (rec_of e)))
            else walk_loop self start_ts end_ts write_file es' n l m
        end
  end.

Definition walker (self : finder) (walk : list entry) (write_file : string) (m : fs)
    : result (nat * option (list mrec)) * fs :=
  let start_ts := timestamp (f_start_date self) in
  let end_ts := timestamp (f_end_date self) in
  match walk_loop self start_ts end_ts write_file walk 0 [] m with
  | (Ok (n, l), m') => (Ok (n, if f_sort_info self then Some l else None), m')
  | (Err e, m') => (Err e, m')
  end.

(** ** [_sorter] (lines 144-165) *)

(** Python's comparison of the key [itemgetter(2, 1, 3, 0)], i.e. of the
    tuples [(ctime, mtime, atime, path)]. *)
Definition key_cmp (r1 r2 : mrec) : comparison :=
  match Z.compare (r_ctime r1) (r_ctime r2) with
  | Eq =>
      match Z.compare (r_mtime r1) (r_mtime r2) with
      | Eq =>
          match Z.compare (r_atime r1) (r_atime r2) with
          | Eq => String.compare (r_path r1) (r_path r2)
          | c => c
          end
      | c => c
      end
  | c => c
  end.

Definition key_lt (r1 r2 : mrec) : bool :=
  match key_cmp r1 r2 with Lt => true | _ => false end.

(** [list.sort] is stable; insertion sort is the stable sort written out
    (all stable sorts agree). *)
Fixpoint insert_rec (x : mrec) (l : list mrec) : list mrec :=
  match l with
  | [] => [x]
  | y :: l' => if key_lt y x then y :: insert_rec x l' else x :: l
  end.

Fixpoint sort_recs (l : list mrec) : list mrec :=
  match l with
  | [] => []
  | x :: l' => insert_rec x (sort_recs l')
  end.

(** Lines 152-155. *)
Definition list_info (i : mrec) : string :=
  ("file: " ++ r_path i ++ nl ++
   "created: " ++ time_ctime (r_ctime i) ++ nl ++
   "modified: " ++ time_ctime (r_mtime i) ++ nl ++
   "accessed: " ++ time_ctime (r_atime i) ++ nl)%string.

(** Lines 156-159, as written: the [mtime=] field renders [i[2]] and the
    [ctime=] field renders [i[1]]. *)
Definition table_info (i : mrec) : string :=
  ("file=" ++ r_path i ++ "   |   " ++
   "mtime=" ++ time_ctime (r_ctime i) ++ "   |   " ++
   "ctime=" ++ time_ctime (r_mtime i) ++ "   |   " ++
   "atime=" ++ time_ctime (r_atime i))%string.

(** The sorted-table line as the specification describes it, each field
    rendering its own time; compared with [table_info] above. *)
Definition table_info_spec (i : mrec) : string :=
  ("file=" ++ r_path i ++ "   |   " ++
   "mtime=" ++ time_ctime (r_mtime i) ++ "   |   " ++
   "ctime=" ++ time_ctime (r_ctime i) ++ "   |   " ++
   "atime=" ++ time_ctime (r_atime i))%string.

Definition sorter (list_file table_file : string) (files_list : list mrec) (m : fs) : fs :=
  let sorted := sort_recs files_list in
  let infos_list := map list_info sorted in
  let infos_table := map table_info sorted in
  let m1 := write_a m list_file (String.concat nl infos_list ++ nl ++ nl) in
  write_a m1 table_file (String.concat nl infos_table).

(** ** [find_files] (lines 167-213) *)

(** The header of lines 179-183. *)
Definition starting_text (self : finder) (script_now : datetime) : string :=
  ("script started at: " ++ dt_str script_now ++ nl ++
   "start date: " ++ dt_str (f_start_date self) ++ nl ++
   "end date: " ++ dt_str (f_end_date self) ++ nl ++
   "     file     |     modified     |" ++
   "     created     |     accessed" ++ nl)%string.

Definition sep3 : string := (nl ++ nl ++ nl)%string.

(** Lines 184-189 (and 198-209): create with the header, or append a
    separator and the header. *)
Definition write_header (m : fs) (p text : string) : fs :=
  if negb (fs_exists m p) then write_w m p text
  else write_a m p (sep3 ++ text).

Definition list_header (self : finder) (script_now : datetime) : string :=
  (py_drop_last 67 (starting_text self script_now) ++ nl ++ nl)%string.

(** [out_dir] is the resolved output folder of lines 168-175 (the
    [os.path.abspath]/[os.chdir]/[os.getcwd] steps) and [walk] what
    [os.walk] yields under the resolved root. The result is the count
    that line 212 prints. *)
Definition find_files (self : finder) (out_dir : string) (script_now : datetime)
    (walk : list entry) (m : fs) : result nat * fs :=
  let write_table := py_join out_dir "founded_table.txt" in
  let text := starting_text self script_now in
  let m1 := write_header m write_table text in
  match walker self walk write_table m1 with
  | (Err e, m2) => (Err e, m2)
  | (Ok (files_founded, files_list), m2) =>
      if f_sort_info self then
        let write_list_sorted := py_join out_dir "founded_list_sorted.txt" in
        let write_table_sorted := py_join out_dir "founded_table_sorted.txt" in
        let m3 := write_header m2 write_list_sorted (list_header self script_now) in
        let m4 := write_header m3 write_table_sorted text in
        match files_list with
        | Some l => (Ok files_founded, sorter write_list_sorted write_table_sorted l m4)
        | None => (Err AttributeError, m4)
        end
      else (Ok files_founded, m2)
  end.

(** Construct the finder, then call [find_files]; an exception of the
    constructor leaves the file system as it was. *)
Definition run (now_start now_end : datetime) (root start_date end_date : option string)
    (include_time : bool) (output_info_to : option string)
    (extensions : option (list string)) (sort_info : bool)
    (out_dir : string) (script_now : datetime) (walk : list entry) (m : fs)
    : result nat * fs :=
  match init now_start now_end root start_date end_date include_time
          output_info_to extensions sort_info with
  | Err e => (Err e, m)
  | Ok self => find_files self out_dir script_now walk m
  end.

(** The count of a walk, [None] when it raised. *)
Definition walker_count (r : result (nat * option (list mrec)) * fs) : option nat :=
  match fst r with Ok (n, _) => Some n | Err _ => None end.


(** The order the sorted reports are specified to follow, in the spec's
    words: creation time, then modification time, then access time, then
    the path. *)
Definition sort_order (r1 r2 : mrec) : Prop :=
  r_ctime r1 < r_ctime r2 \/
  (r_ctime r1 = r_ctime r2 /\
   (r_mtime r1 < r_mtime r2 \/
    (r_mtime r1 = r_mtime r2 /\
     (r_atime r1 < r_atime r2 \/
      (r_atime r1 = r_atime r2 /\ String.compare (r_path r1) (r_path r2) <> Gt))))).




(** [m'] only grew existing files: their old contents are a prefix. *)
Definition extends (m m' : fs) : Prop :=
  forall p c, m p = Some c -> exists s, m' p = Some (c ++ s)%string.

(** A date argument that [__init__] hands to [strptime] and that does not
    parse. *)
Definition bad_date (it : bool) (o : option string) : Prop :=
  match o with
  | Some s => s <> ""%string /\ strptime s (date_format it) = None
  | None => False
  end.


(** The files of a walk that line 131 counts: present, accepted by the
    configured set, and inside the window. *)
Definition selected_at (exts : list string) (ts te : Z) (e : entry) : bool :=
  e_exists e && ext_accepted exts (py_lower (splitext_ext (e_path e)))
  && date_match ts te e.

(** The files of [walk] that the walk of [self] counts. *)
Definition walk_matches (self : finder) (exts : list string) (walk : list entry) : list entry :=
  filter (selected_at exts (timestamp (f_start_date self)) (timestamp (f_end_date self))) walk.

(** The appends of lines 137-141, one per record, in order. *)
Definition append_lines (m : fs) (wf : string) (recs : list mrec) : fs :=
  fold_left (fun m' r => write_a m' wf (primary_line r)) recs m.

(** ** Facts about strings and the report file system *)

Lemma str_app_assoc (a b c : string) : (a ++ (b ++ c) = (a ++ b) ++ c)%string.
Proof. induction a as [|x a IH]; simpl; [reflexivity | now rewrite IH]. Qed.

Lemma str_app_same_length (a b x y : string) :
  String.length a = String.length b -> (a ++ x = b ++ y)%string -> a = b /\ x = y.
Proof.
  revert b. induction a as [|c a IH]; intros [|d b] Hl H; try discriminate.
  - auto.
  - simpl in Hl, H. injection Hl as Hl. injection H as <- H.
    destruct (IH b Hl H) as [-> ->]. auto.
Qed.

Lemma str_app_nil (a : string) : (a ++ "" = a)%string.
Proof. induction a as [|x a IH]; simpl; [reflexivity | now rewrite IH]. Qed.

Lemma str_app_cancel (a b c : string) : (a ++ b = a ++ c)%string -> b = c.
Proof. induction a as [|x a IH]; simpl; [auto | intros H; injection H; auto]. Qed.

Lemma concat_empty_cons (x : string) (xs : list string) :
  String.concat "" (x :: xs) = (x ++ String.concat "" xs)%string.
Proof. destruct xs; simpl; [now rewrite str_app_nil | reflexivity]. Qed.

Lemma fs_set_same (m : fs) p c : fs_set m p c p = Some c.
Proof. unfold fs_set. now rewrite String.eqb_refl. Qed.

Lemma fs_set_other (m : fs) p q c : q <> p -> fs_set m p c q = m q.
Proof. intros H. unfold fs_set. destruct (String.eqb_spec q p); congruence. Qed.

Lemma contents_write_a_same (m : fs) p s :
  contents (write_a m p s) p = (contents m p ++ s)%string.
Proof. unfold contents, write_a. rewrite fs_set_same. now destruct (m p). Qed.

Lemma write_a_other (m : fs) p q s : q <> p -> write_a m p s q = m q.
Proof. apply fs_set_other. Qed.

Lemma write_header_other (m : fs) p q s : q <> p -> write_header m p s q = m q.
Proof. intros H. unfold write_header. destruct (negb _); [apply fs_set_other | apply write_a_other]; auto. Qed.

(** Only the file it is given is written by the walk. *)
Lemma walk_loop_other self ts te wf es n l m q :
  q <> wf -> snd (walk_loop self ts te wf es n l m) q = m q.
Proof.
  intros Hq. revert n l m.
  induction es as [|e es IH]; intros n l m; simpl; [reflexivity|].
  destruct (negb (e_exists e)); [apply IH|].
  destruct (f_extensions self) as [exts|]; [|reflexivity].
  destruct (negb _); [apply IH|].
  destruct (date_match ts te e); [|apply IH].
  rewrite IH. now apply write_a_other.
Qed.

Lemma walker_other self walk wf m q :
  q <> wf -> snd (walker self walk wf m) q = m q.
Proof.
  intros Hq. unfold walker.
  pose proof (walk_loop_other self (timestamp (f_start_date self))
                (timestamp (f_end_date self)) wf walk 0 [] m q Hq) as H.
  destruct (walk_loop _ _ _ _ _ _ _ _) as [[[n l]|e] m'] eqn:E; simpl in *; auto.
Qed.

(** What the walk loop accumulates: the matches [recs], one line each. *)
Lemma walk_loop_spec self ts te wf es n l m n' l' m' :
  walk_loop self ts te wf es n l m = (Ok (n', l'), m') ->
  exists recs, n' = (n + length recs)%nat /\
    l' = (if f_sort_info self then (l ++ recs)%list else l) /\
    contents m' wf = (contents m wf ++ String.concat "" (map primary_line recs))%string.
Proof.
  revert n l m.
  induction es as [|e es IH]; intros n l m; simpl.
  - intros H; injection H; intros; subst. exists []. simpl.
    rewrite str_app_nil, app_nil_r. destruct (f_sort_info self); auto.
  - destruct (negb (e_exists e)); [apply IH|].
    destruct (f_extensions self) as [exts|]; [|discriminate].
    destruct (negb _); [apply IH|].
    destruct (date_match ts te e); [|apply IH].
    intros H. apply IH in H as (recs & Hn & Hl & Hc).
    exists (rec_of e :: recs). split; [simpl; lia|]. split.
    + rewrite Hl. destruct (f_sort_info self); auto. now rewrite <- app_assoc.
    + rewrite Hc, contents_write_a_same. cbn [map]. rewrite concat_empty_cons.
      apply eq_sym, str_app_assoc.
Qed.

(** A file the step skips can be removed from the walk. *)
Lemma walk_loop_skip self ts te wf es1 e es2 n l m :
  (e_exists e = false \/
   exists exts, f_extensions self = Some exts /\
                ext_accepted exts (py_lower (splitext_ext (e_path e))) = false) ->
  walk_loop self ts te wf (es1 ++ e :: es2) n l m
  = walk_loop self ts te wf (es1 ++ es2) n l m.
Proof.
  intros Hskip. revert n l m.
  induction es1 as [|x es1 IH]; intros n l m; simpl.
  - destruct Hskip as [He | (exts & Hx & Ha)].
    + now rewrite He.
    + destruct (negb (e_exists e)); [reflexivity|]. now rewrite Hx, Ha.
  - destruct (negb (e_exists x)); [apply IH|].
    destruct (f_extensions self); [|reflexivity].
    destruct (negb _); [apply IH|].
    destruct (date_match ts te x); apply IH.
Qed.


(** ** The sort key *)

Lemma key_cmp_antisym (r1 r2 : mrec) : key_cmp r1 r2 = CompOpp (key_cmp r2 r1).
Proof.
  unfold key_cmp.
  rewrite (Z.compare_antisym (r_ctime r1) (r_ctime r2)),
    (Z.compare_antisym (r_mtime r1) (r_mtime r2)),
    (Z.compare_antisym (r_atime r1) (r_atime r2)),
    (String.compare_antisym (r_path r2) (r_path r1)).
  destruct (r_ctime r1 ?= r_ctime r2), (r_mtime r1 ?= r_mtime r2),
    (r_atime r1 ?= r_atime r2), (String.compare (r_path r1) (r_path r2)); reflexivity.
Qed.

Lemma key_not_gt_order (x y : mrec) : key_cmp x y <> Gt -> sort_order x y.
Proof.
  unfold key_cmp, sort_order.
  destruct (Z.compare_spec (r_ctime x) (r_ctime y)); [|auto|congruence].
  right; split; [assumption|].
  destruct (Z.compare_spec (r_mtime x) (r_mtime y)); [|auto|congruence].
  right; split; [assumption|].
  destruct (Z.compare_spec (r_atime x) (r_atime y)); [|auto|congruence].
  right; split; assumption.
Qed.

Lemma key_lt_false_order (x y : mrec) : key_lt y x = false -> sort_order x y.
Proof.
  unfold key_lt. intros H. apply key_not_gt_order.
  rewrite key_cmp_antisym. destruct (key_cmp y x); simpl; congruence.
Qed.

Lemma key_lt_true_order (x y : mrec) : key_lt y x = true -> sort_order y x.
Proof.
  unfold key_lt. intros H. apply key_not_gt_order. destruct (key_cmp y x); congruence.
Qed.

Lemma insert_rec_sorted (x : mrec) (l : list mrec) :
  LocallySorted sort_order l -> LocallySorted sort_order (insert_rec x l).
Proof.
  induction 1 as [| a | a b l Hbl IH Hab]; simpl.
  - constructor.
  - destruct (key_lt a x) eqn:E; apply LSorted_consn.
    + constructor.
    + now apply key_lt_true_order.
    + constructor.
    + now apply key_lt_false_order.
  - destruct (key_lt a x) eqn:E.
    + simpl in IH |- *. destruct (key_lt b x) eqn:E2; constructor; auto.
      now apply key_lt_true_order.
    + constructor; [constructor; auto | now apply key_lt_false_order].
Qed.

Lemma sort_recs_sorted (l : list mrec) : Sorted sort_order (sort_recs l).
Proof.
  apply Sorted_LocallySorted_iff.
  induction l as [|x l IH]; simpl; [constructor | now apply insert_rec_sorted].
Qed.

Lemma insert_rec_perm (x : mrec) (l : list mrec) : Permutation (x :: l) (insert_rec x l).
Proof.
  induction l as [|y l IH]; simpl; [reflexivity|].
  destruct (key_lt y x); [|reflexivity].
  rewrite perm_swap. now constructor.
Qed.

Lemma sort_recs_perm (l : list mrec) : Permutation l (sort_recs l).
Proof.
  induction l as [|x l IH]; simpl; [reflexivity|].
  rewrite <- insert_rec_perm. now constructor.
Qed.

Lemma contents_write_a_other (m : fs) p q s :
  q <> p -> contents (write_a m p s) q = contents m q.
Proof. intros H. unfold contents. now rewrite write_a_other. Qed.

(** ** Extension normalisation *)

Lemma ascii_lower_dot (c : ascii) : Ascii.eqb (ascii_lower c) "."%char = Ascii.eqb c "."%char.
Proof.
  destruct c as [[] [] [] [] [] [] [] []]; reflexivity.
Qed.

Lemma ascii_lower_idem (c : ascii) : ascii_lower (ascii_lower c) = ascii_lower c.
Proof.
  destruct c as [[] [] [] [] [] [] [] []]; reflexivity.
Qed.

Lemma py_lower_idem (s : string) : py_lower (py_lower s) = py_lower s.
Proof. induction s as [|c s IH]; simpl; [reflexivity | now rewrite ascii_lower_idem, IH]. Qed.

Lemma py_lower_app (a b : string) : py_lower (a ++ b) = (py_lower a ++ py_lower b)%string.
Proof. induction a as [|c a IH]; simpl; [reflexivity | now rewrite IH]. Qed.

Lemma startswith_dot (s : string) :
  startswith s "." = match s with String c _ => Ascii.eqb c "."%char | _ => false end.
Proof.
  destruct s as [|c s]; [reflexivity|].
  destruct c as [[] [] [] [] [] [] [] []]; destruct s; reflexivity.
Qed.

Lemma startswith_py_lower (s : string) : startswith (py_lower s) "." = startswith s ".".
Proof. rewrite !startswith_dot. destruct s; simpl; [reflexivity | apply ascii_lower_dot]. Qed.

(** Every normalised entry is lowercase and starts with a dot. *)
Lemma normalize_ext_shape (s : string) :
  startswith (normalize_ext s) "." = true /\ py_lower (normalize_ext s) = normalize_ext s.
Proof.
  unfold normalize_ext. destruct (startswith s ".") eqn:E; cbn [negb append]; split.
  - now rewrite startswith_py_lower.
  - apply py_lower_idem.
  - now rewrite startswith_dot.
  - cbn [py_lower]. now rewrite py_lower_idem.
Qed.

Lemma normalize_ext_nonempty (s : string) : normalize_ext s <> ""%string.
Proof.
  intros H. pose proof (proj1 (normalize_ext_shape s)) as Hs. rewrite H in Hs. discriminate.
Qed.

(** ** Reports only grow *)

Lemma extends_refl (m : fs) : extends m m.
Proof. intros p c H. exists ""%string. now rewrite str_app_nil. Qed.

Lemma extends_trans (m1 m2 m3 : fs) : extends m1 m2 -> extends m2 m3 -> extends m1 m3.
Proof.
  intros H12 H23 p c H. destruct (H12 p c H) as (s1 & H1).
  destruct (H23 p _ H1) as (s2 & H2). exists (s1 ++ s2)%string.
  now rewrite str_app_assoc.
Qed.

Lemma write_a_extends (m : fs) p s : extends m (write_a m p s).
Proof.
  intros q c H. unfold write_a, fs_set.
  destruct (String.eqb_spec q p) as [->|Hn]; [rewrite H; now exists s|].
  exists ""%string. now rewrite str_app_nil.
Qed.

(** The header is created only on a missing file, and appended after the
    separator to an existing one. *)
Lemma write_header_extends (m : fs) p t : extends m (write_header m p t).
Proof.
  unfold write_header, fs_exists. destruct (m p) eqn:Hp; simpl; [apply write_a_extends|].
  intros q c H. unfold write_w, fs_set.
  destruct (String.eqb_spec q p) as [->|Hn]; [congruence|].
  exists ""%string. now rewrite str_app_nil.
Qed.

Lemma write_header_existing (m : fs) p c t :
  m p = Some c -> write_header m p t p = Some (c ++ sep3 ++ t)%string.
Proof.
  intros H. unfold write_header, fs_exists. rewrite H. simpl.
  unfold write_a. rewrite fs_set_same, H. reflexivity.
Qed.

Lemma extends_after_header (m m' : fs) p c t :
  m p = Some c -> extends (write_header m p t) m' ->
  exists s, m' p = Some (c ++ sep3 ++ t ++ s)%string.
Proof.
  intros H E. destruct (E p _ (write_header_existing m p c t H)) as (s & Hs).
  exists s. rewrite Hs, !str_app_assoc. reflexivity.
Qed.

Lemma walk_loop_extends self ts te wf es n l m :
  extends m (snd (walk_loop self ts te wf es n l m)).
Proof.
  revert n l m.
  induction es as [|e es IH]; intros n l m; simpl; [apply extends_refl|].
  destruct (negb (e_exists e)); [apply IH|].
  destruct (f_extensions self); [|apply extends_refl].
  destruct (negb _); [apply IH|].
  destruct (date_match ts te e); [|apply IH].
  eapply extends_trans; [apply write_a_extends | apply IH].
Qed.

Lemma walker_extends self walk wf m : extends m (snd (walker self walk wf m)).
Proof.
  unfold walker.
  pose proof (walk_loop_extends self (timestamp (f_start_date self))
                (timestamp (f_end_date self)) wf walk 0 [] m) as H.
  destruct (walk_loop _ _ _ _ _ _ _ _) as [[[n l]|e] m'] eqn:E; exact H.
Qed.

Lemma sorter_extends lf tf l m : extends m (sorter lf tf l m).
Proof.
  unfold sorter. eapply extends_trans; apply write_a_extends.
Qed.

Lemma py_join_neq (a b1 b2 : string) :
  startswith b1 "/" = false -> startswith b2 "/" = false -> b1 <> b2 ->
  py_join a b1 <> py_join a b2.
Proof.
  intros H1 H2 Hn. unfold py_join. rewrite H1, H2.
  destruct (String.eqb a "" || ends_with_slash a); intros H;
    apply str_app_cancel in H; [contradiction|].
  injection H. exact Hn.
Qed.

(** ** Letter-case variants *)





(** ** The walk in closed form *)

Lemma walk_loop_exact self exts ts te wf es n l m :
  f_extensions self = Some exts ->
  walk_loop self ts te wf es n l m
  = (Ok ((n + length (filter (selected_at exts ts te) es))%nat,
         if f_sort_info self then (l ++ map rec_of (filter (selected_at exts ts te) es))%list
         else l),
     append_lines m wf (map rec_of (filter (selected_at exts ts te) es))).
Proof.
  intros Hx. revert n l m.
  induction es as [|e es IH]; intros n l m; cbn [walk_loop filter].
  - rewrite Nat.add_0_r, app_nil_r. now destruct (f_sort_info self).
  - change (selected_at exts ts te e) with
      (e_exists e && ext_accepted exts (py_lower (splitext_ext (e_path e)))
       && date_match ts te e).
    destruct (e_exists e); cbn [negb andb]; [|apply IH].
    rewrite Hx.
    destruct (ext_accepted exts _); cbn [negb andb]; [|apply IH].
    destruct (date_match ts te e); [|apply IH].
    rewrite IH. cbn [map length]. rewrite Nat.add_succ_r.
    destruct (f_sort_info self); [|reflexivity].
    now rewrite <- app_assoc.
Qed.


Lemma walk_loop_vanished self ts te wf es n l m :
  forallb (fun e => negb (e_exists e)) es = true ->
  walk_loop self ts te wf es n l m = (Ok (n, l), m).
Proof.
  induction es as [|e es IH]; simpl; [reflexivity|].
  intros H. apply andb_true_iff in H as [He H]. rewrite He. now apply IH.
Qed.

Lemma contents_append_lines m wf recs :
  contents (append_lines m wf recs) wf
  = (contents m wf ++ String.concat "" (map primary_line recs))%string.
Proof.
  revert m. induction recs as [|r recs IH]; intros m.
  - simpl. now rewrite str_app_nil.
  - unfold append_lines in IH |- *. cbn [fold_left map]. rewrite IH, contents_write_a_same.
    rewrite concat_empty_cons. apply eq_sym, str_app_assoc.
Qed.

Lemma append_lines_other m wf recs q : q <> wf -> append_lines m wf recs q = m q.
Proof.
  intros Hq. revert m. induction recs as [|r recs IH]; intros m; [reflexivity|].
  unfold append_lines in IH |- *. cbn [fold_left]. rewrite IH. now apply write_a_other.
Qed.

Lemma contents_write_header m p t :
  contents (write_header m p t) p
  = (contents m p ++ (if fs_exists m p then sep3 else "") ++ t)%string.
Proof.
  unfold write_header, fs_exists, contents. destruct (m p) eqn:Hp; simpl.
  - unfold write_a. rewrite fs_set_same, Hp. reflexivity.
  - unfold write_w. now rewrite fs_set_same.
Qed.

Lemma sorter_other lf tf l m q : q <> lf -> q <> tf -> sorter lf tf l m q = m q.
Proof. intros H1 H2. unfold sorter. now rewrite !write_a_other. Qed.

Lemma contents_sorter_list lf tf l m :
  lf <> tf ->
  contents (sorter lf tf l m) lf
  = (contents m lf ++ String.concat nl (map list_info (sort_recs l)) ++ nl ++ nl)%string.
Proof.
  intros Hn. unfold sorter. rewrite contents_write_a_other by auto.
  now rewrite contents_write_a_same.
Qed.

Lemma contents_sorter_table lf tf l m :
  lf <> tf ->
  contents (sorter lf tf l m) tf
  = (contents m tf ++ String.concat nl (map table_info (sort_recs l)))%string.
Proof.
  intros Hn. unfold sorter. rewrite contents_write_a_same, contents_write_a_other by auto.
  reflexivity.
Qed.

Lemma contents_eq_at (m m' : fs) q : m' q = m q -> contents m' q = contents m q.
Proof. unfold contents. now intros ->. Qed.

Lemma fs_exists_eq_at (m m' : fs) q : m' q = m q -> fs_exists m' q = fs_exists m q.
Proof. unfold fs_exists. now intros ->. Qed.

(** ** Strings: length, prefixes, comparison *)

Lemma str_length_app (a b : string) :
  String.length (a ++ b) = (String.length a + String.length b)%nat.
Proof. induction a as [|c a IH]; simpl; [reflexivity | now rewrite IH]. Qed.

Lemma substring_app_prefix (a b : string) :
  String.substring 0 (String.length a) (a ++ b) = a.
Proof.
  induction a as [|c a IH]; simpl; [now destruct b | now rewrite IH].
Qed.

Lemma py_drop_last_app (a b : string) :
  py_drop_last (String.length b) (a ++ b) = a.
Proof.
  unfold py_drop_last. rewrite str_length_app, Nat.add_sub.
  apply substring_app_prefix.
Qed.

Lemma string_compare_lt_trans (s1 s2 s3 : string) :
  String.compare s1 s2 = Lt -> String.compare s2 s3 = Lt -> String.compare s1 s3 = Lt.
Proof.
  revert s2 s3.
  induction s1 as [|c1 s1 IH]; intros [|c2 s2] [|c3 s3]; simpl; try congruence.
  unfold Ascii.compare.
  destruct (N.compare_spec (N_of_ascii c1) (N_of_ascii c2)) as [E12|L12|G12];
  destruct (N.compare_spec (N_of_ascii c2) (N_of_ascii c3)) as [E23|L23|G23];
  try congruence; intros H1 H2.
  - rewrite E12, E23, N.compare_refl. eauto.
  - rewrite E12, (proj2 (N.compare_lt_iff _ _) L23). reflexivity.
  - rewrite <- E23, (proj2 (N.compare_lt_iff _ _) L12). reflexivity.
  - assert (L13 : (N_of_ascii c1 < N_of_ascii c3)%N) by lia.
    rewrite (proj2 (N.compare_lt_iff _ _) L13). reflexivity.
Qed.

Lemma string_compare_not_gt_trans (s1 s2 s3 : string) :
  String.compare s1 s2 <> Gt -> String.compare s2 s3 <> Gt -> String.compare s1 s3 <> Gt.
Proof.
  destruct (String.compare s1 s2) eqn:E12; [|intros _|congruence].
  - apply String.compare_eq_iff in E12 as ->. auto.
  - destruct (String.compare s2 s3) eqn:E23; [|intros _|congruence].
    + apply String.compare_eq_iff in E23 as <-. now rewrite E12.
    + now rewrite (string_compare_lt_trans s1 s2 s3).
Qed.

Lemma sort_order_trans (x y z : mrec) : sort_order x y -> sort_order y z -> sort_order x z.
Proof.
  unfold sort_order. intros Hxy Hyz.
  destruct Hxy as [H|[H1 [H|[H2 [H|[H3 H4]]]]]];
  destruct Hyz as [K|[K1 [K|[K2 [K|[K3 K4]]]]]]; try lia.
  right. split; [lia|]. right. split; [lia|]. right. split; [lia|].
  eapply string_compare_not_gt_trans; eassumption.
Qed.

Lemma sort_order_antisym (x y : mrec) : sort_order x y -> sort_order y x -> x = y.
Proof.
  destruct x as [px mx cx ax], y as [py my cy ay]. unfold sort_order; simpl.
  intros Hxy Hyx.
  destruct Hxy as [H|[H1 [H|[H2 [H|[H3 H4]]]]]]; try lia;
  destruct Hyx as [K|[K1 [K|[K2 [K|[K3 K4]]]]]]; try lia.
  subst. rewrite String.compare_antisym in K4.
  destruct (String.compare px py) eqn:E; simpl in *; try congruence.
  apply String.compare_eq_iff in E. now subst.
Qed.

(** Two lists sorted for [sort_order] with the same elements are equal. *)
Lemma sorted_perm_unique (l1 l2 : list mrec) :
  Sorted sort_order l1 -> Sorted sort_order l2 -> Permutation l1 l2 -> l1 = l2.
Proof.
  intros S1 S2.
  apply Sorted_StronglySorted in S1; [|exact sort_order_trans].
  apply Sorted_StronglySorted in S2; [|exact sort_order_trans].
  revert l2 S2. induction S1 as [|x t1 S1 IH F1]; intros l2 S2 P.
  - now apply Permutation_nil in P.
  - destruct S2 as [|y t2 S2 F2]; [apply Permutation_sym, Permutation_nil in P; discriminate|].
    assert (Hxy : x = y).
    { destruct (Permutation_in x P (or_introl eq_refl)) as [->|Hx]; [reflexivity|].
      destruct (Permutation_in y (Permutation_sym P) (or_introl eq_refl)) as [<-|Hy];
        [reflexivity|].
      apply sort_order_antisym.
      - exact (proj1 (Forall_forall _ _) F1 y Hy).
      - exact (proj1 (Forall_forall _ _) F2 x Hx). }
    subst y. f_equal. apply IH; [exact S2|]. exact (Permutation_cons_inv P).
Qed.

Lemma perm_filter_map (f : entry -> bool) (l1 l2 : list entry) :
  Permutation l1 l2 -> Permutation (map rec_of (filter f l1)) (map rec_of (filter f l2)).
Proof.
  intros P. apply Permutation_map.
  induction P; simpl.
  - constructor.
  - destruct (f x); [constructor|]; assumption.
  - destruct (f x), (f y); try apply perm_swap; reflexivity.
  - eapply perm_trans; eassumption.
Qed.

(** ** The fields [init] stores *)

Lemma init_fields now_start now_end root sd ed it out exts so self :
  init now_start now_end root sd ed it out exts so = Ok self ->
  parse_or (date_format it) sd (replace_hmsu (sub_days now_start 7) 0 0 0 0)
    = Ok (f_start_date self) /\
  (exists end0, parse_or (date_format it) ed now_end = Ok end0 /\
     f_end_date self = if negb it then replace_hms end0 23 59 59 else end0) /\
  f_sort_info self = so /\
  f_extensions self = match exts with
                      | Some ((_ :: _) as l) => Some (map normalize_ext l)
                      | _ => None
                      end.
Proof.
  unfold init.
  destruct (parse_or _ sd _) as [st|er]; [|discriminate].
  destruct (parse_or _ ed _) as [en|er]; [|discriminate].
  intros H. injection H as <-. simpl. repeat split; auto. now exists en.
Qed.

(** ** Claims *)

(** C1: in any walk, a present file that passes the extension filter is
    reported exactly when one of its modification, creation and access
    times lies strictly between the two bounds. If one does, the walk
    counts it once, lists its record at its place in walk order and
    appends its line; if none does (a time equal to a bound is not
    inside), the walk behaves as if the file were not listed, so nothing
    of it is counted, listed or written. *)
Theorem walker_date_window_open (self : finder) (exts : list string)
    (es1 es2 : list entry) (e : entry) (wf : string) (m : fs) :
  f_extensions self = Some exts ->
  e_exists e = true ->
  ext_accepted exts (py_lower (splitext_ext (e_path e))) = true ->
  ((timestamp (f_start_date self) < e_mtime e < timestamp (f_end_date self) \/
    timestamp (f_start_date self) < e_ctime e < timestamp (f_end_date self) \/
    timestamp (f_start_date self) < e_atime e < timestamp (f_end_date self)) ->
   walker self (es1 ++ e :: es2) wf m =
   (Ok (S (length (walk_matches self exts (es1 ++ es2))),
        if f_sort_info self
        then Some (map rec_of (walk_matches self exts es1 ++ e :: walk_matches self exts es2))
        else None),
    append_lines m wf
      (map rec_of (walk_matches self exts es1 ++ e :: walk_matches self exts es2)))) /\
  (~ (timestamp (f_start_date self) < e_mtime e < timestamp (f_end_date self) \/
      timestamp (f_start_date self) < e_ctime e < timestamp (f_end_date self) \/
      timestamp (f_start_date self) < e_atime e < timestamp (f_end_date self)) ->
   walker self (es1 ++ e :: es2) wf m = walker self (es1 ++ es2) wf m).
Proof.
  intros Hx He Ha. unfold walker, walk_matches.
  rewrite !(walk_loop_exact self exts) by exact Hx.
  rewrite !filter_app. cbn [filter].
  set (ts := timestamp (f_start_date self)).
  set (te := timestamp (f_end_date self)).
  assert (Hs : selected_at exts ts te e = date_match ts te e)
    by (unfold selected_at; rewrite He, Ha; reflexivity).
  rewrite Hs. split; intros W.
  - assert (D : date_match ts te e = true).
    { unfold date_match, in_window.
      rewrite !orb_true_iff, !andb_true_iff, !Z.ltb_lt. tauto. }
    rewrite D, Nat.add_0_l, !length_app. cbn [length]. rewrite Nat.add_succ_r.
    destruct (f_sort_info self); reflexivity.
  - destruct (date_match ts te e) eqn:D; [|reflexivity].
    exfalso. apply W. unfold date_match, in_window in D.
    rewrite !orb_true_iff, !andb_true_iff, !Z.ltb_lt in D. tauto.
Qed.

(** C7: a finished walk returns its count [n] together with the list of
    the [n] match records if sorting was requested and [None]
    otherwise, and it has appended exactly one primary line per match
    record to the primary report. *)
Theorem walker_count_and_list (self : finder) (walk : list entry) (wf : string)
    (m m' : fs) (n : nat) (fl : option (list mrec)) :
  walker self walk wf m = (Ok (n, fl), m') ->
  exists recs, length recs = n /\
    fl = (if f_sort_info self then Some recs else None) /\
    contents m' wf = (contents m wf ++ String.concat "" (map primary_line recs))%string.
Proof.
  unfold walker.
  destruct (walk_loop _ _ _ _ _ _ _ _) as [[[n0 l0]|er] m0] eqn:E; intros H;
    [|discriminate].
  injection H as <- <- <-.
  apply walk_loop_spec in E as (recs & Hn & Hl & Hc).
  exists recs. split; [simpl in Hn; lia|]. split; [|exact Hc].
  rewrite Hl. now destruct (f_sort_info self).
Qed.

(** C10: with a non-empty extension filter configured, a file whose
    [splitext] extension is empty is skipped: the walk with it gives the
    same count, list and reports as the walk without it. *)
Theorem walker_skips_no_extension now_start now_end root sd ed it out
    (exts : list string) so (self : finder) (es1 es2 : list entry) (e : entry)
    (wf : string) (m : fs) :
  init now_start now_end root sd ed it out (Some exts) so = Ok self ->
  exts <> [] ->
  splitext_ext (e_path e) = ""%string ->
  walker self (es1 ++ e :: es2) wf m = walker self (es1 ++ es2) wf m.
Proof.
  intros Hi Hne He.
  apply init_fields in Hi as (_ & _ & _ & Hx).
  destruct exts as [|x xs]; [contradiction|].
  unfold walker. rewrite walk_loop_skip; [reflexivity|].
  right. exists (map normalize_ext (x :: xs)). split; [exact Hx|].
  rewrite He. simpl. unfold ext_accepted.
  destruct (existsb _ _) eqn:Hb; [|reflexivity].
  apply existsb_exists in Hb as (y & Hy & Heq).
  apply String.eqb_eq in Heq. simpl in Hy.
  destruct Hy as [<- | Hy]; [destruct (normalize_ext_nonempty x); auto|].
  apply in_map_iff in Hy as (z & <- & _). destruct (normalize_ext_nonempty z); auto.
Qed.

(** C2 (as the code behaves): with [extensions] absent or empty, line 106
    never assigns [_extensions], so the walk raises [AttributeError] at
    line 129 on the first present file, and the run fails instead of
    matching every file. *)
Theorem run_without_filter_raises now_start now_end root it out
    (exts : option (list string)) so out_dir script_now (p : string)
    (mt ct at' : Z) (es : list entry) (m : fs) :
  exts = None \/ exts = Some [] ->
  fst (run now_start now_end root None None it out exts so out_dir script_now
         (mkEntry p true mt ct at' :: es) m) = Err AttributeError.
Proof.
  intros H. unfold run, init, parse_or, find_files, walker.
  destruct H; subst; reflexivity.
Qed.

(** C3 (as the code behaves): [_sorter] writes to the sorted table the
    lines [table_info] of the records in sort order, and such a line
    agrees with the specified rendering [table_info_spec] exactly when the
    record's creation and modification times render alike (with
    [time.ctime]'s fixed width): the [mtime=] field shows the creation
    time and the [ctime=] field the modification time. *)
Theorem sorted_table_fields_swapped (lf tf : string) (l : list mrec) (m : fs) :
  lf <> tf ->
  (forall t1 t2, String.length (time_ctime t1) = String.length (time_ctime t2)) ->
  contents (sorter lf tf l m) tf
    = (contents m tf ++ String.concat nl (map table_info (sort_recs l)))%string /\
  (forall r, table_info r = table_info_spec r <-> time_ctime (r_ctime r) = time_ctime (r_mtime r)).
Proof.
  intros Hn Hw. split; [now apply contents_sorter_table|].
  intros r. unfold table_info, table_info_spec. split.
  - intros H. do 4 apply str_app_cancel in H.
    exact (proj1 (str_app_same_length _ _ _ _ (Hw _ _) H)).
  - intros H. now rewrite H.
Qed.

(** C4 (amended): an omitted lower bound is seven days before now at
    00:00:00.000000; an omitted upper bound is now when [include_time] is
    set, and otherwise now with its time of day set to 23:59:59. *)
Theorem init_default_bounds now_start now_end root sd ed it out exts so (self : finder) :
  init now_start now_end root sd ed it out exts so = Ok self ->
  (sd = None -> f_start_date self = replace_hmsu (sub_days now_start 7) 0 0 0 0) /\
  (ed = None -> f_end_date self = if it then now_end else replace_hms now_end 23 59 59).
Proof.
  intros H. apply init_fields in H as (Hs & (e0 & He & Hend) & _ & _).
  split; intros ->; simpl in *.
  - now injection Hs.
  - injection He as <-. rewrite Hend. now destruct it.
Qed.

(** C5: the sorter orders the records by creation time, then
    modification time, then access time, then path (a permutation of its
    input, consecutive records in that order), and appends the list
    and table renderings in that order. *)
Theorem sorter_key_order (lf tf : string) (l : list mrec) (m : fs) :
  lf <> tf ->
  Permutation l (sort_recs l) /\ Sorted sort_order (sort_recs l) /\
  contents (sorter lf tf l m) lf =
    (contents m lf ++ String.concat nl (map list_info (sort_recs l)) ++ nl ++ nl)%string /\
  contents (sorter lf tf l m) tf =
    (contents m tf ++ String.concat nl (map table_info (sort_recs l)))%string.
Proof.
  intros Hn. split; [apply sort_recs_perm|]. split; [apply sort_recs_sorted|].
  unfold sorter. split.
  - rewrite contents_write_a_other by auto. rewrite contents_write_a_same.
    reflexivity.
  - rewrite contents_write_a_same, contents_write_a_other by auto. reflexivity.
Qed.

(** C6: a run only appends to report files, so an existing file keeps its
    old contents as a prefix. An existing primary report receives the
    three-newline separator and the run header; with sorting, once the
    walk has finished, so do the two sorted reports, each with its own
    header. *)
Theorem find_files_append_only (self : finder) (out : string) (now : datetime)
    (walk : list entry) (m : fs) :
  extends m (snd (find_files self out now walk m)) /\
  (forall c, m (py_join out "founded_table.txt") = Some c ->
     exists s, snd (find_files self out now walk m) (py_join out "founded_table.txt")
               = Some (c ++ sep3 ++ starting_text self now ++ s)%string) /\
  (forall n c, f_sort_info self = true -> fst (find_files self out now walk m) = Ok n ->
     m (py_join out "founded_list_sorted.txt") = Some c ->
     exists s, snd (find_files self out now walk m) (py_join out "founded_list_sorted.txt")
               = Some (c ++ sep3 ++ list_header self now ++ s)%string) /\
  (forall n c, f_sort_info self = true -> fst (find_files self out now walk m) = Ok n ->
     m (py_join out "founded_table_sorted.txt") = Some c ->
     exists s, snd (find_files self out now walk m) (py_join out "founded_table_sorted.txt")
               = Some (c ++ sep3 ++ starting_text self now ++ s)%string).
Proof.
  assert (N1 : py_join out "founded_list_sorted.txt" <> py_join out "founded_table.txt")
    by (apply py_join_neq; [reflexivity | reflexivity | discriminate]).
  assert (N2 : py_join out "founded_table_sorted.txt" <> py_join out "founded_table.txt")
    by (apply py_join_neq; [reflexivity | reflexivity | discriminate]).
  assert (N3 : py_join out "founded_table_sorted.txt" <> py_join out "founded_list_sorted.txt")
    by (apply py_join_neq; [reflexivity | reflexivity | discriminate]).
  unfold find_files.
  set (wt := py_join out "founded_table.txt") in *.
  set (wls := py_join out "founded_list_sorted.txt") in *.
  set (wts := py_join out "founded_table_sorted.txt") in *.
  set (text := starting_text self now).
  set (m1 := write_header m wt text).
  assert (E1 : extends m m1) by apply write_header_extends.
  pose proof (walker_extends self walk wt m1) as E2.
  pose proof (walker_other self walk wt m1) as O2.
  destruct (walker self walk wt m1) as [[[n fl]|er] m2] eqn:W; simpl in E2, O2.
  - destruct (f_sort_info self) eqn:S.
    + set (m3 := write_header m2 wls (list_header self now)).
      set (m4 := write_header m3 wts text).
      assert (E3 : extends m2 m3) by apply write_header_extends.
      assert (E4 : extends m3 m4) by apply write_header_extends.
      destruct fl as [l|].
      * pose proof (sorter_extends wls wts l m4) as E5. cbn [fst snd].
        split; [|split; [|split]].
        -- eauto using extends_trans.
        -- intros c Hc. apply (extends_after_header m); [exact Hc|].
           eauto using extends_trans.
        -- intros n' c _ _ Hc. apply (extends_after_header m2).
           ++ rewrite O2 by exact N1. unfold m1. rewrite write_header_other by exact N1.
              exact Hc.
           ++ eauto using extends_trans.
        -- intros n' c _ _ Hc. apply (extends_after_header m3); [|exact E5].
           unfold m3. rewrite write_header_other by exact N3.
           rewrite O2 by exact N2. unfold m1. rewrite write_header_other by exact N2.
           exact Hc.
      * cbn [fst snd]. split; [|split; [|split]]; try (intros n' c _ H; discriminate).
        -- eauto using extends_trans.
        -- intros c Hc. apply (extends_after_header m); [exact Hc|].
           eauto using extends_trans.
    + cbn [fst snd]. split; [|split; [|split]]; try (intros n' c H; discriminate).
      * eauto using extends_trans.
      * intros c Hc. now apply (extends_after_header m).
  - cbn [fst snd]. split; [|split; [|split]]; try (intros n' c _ H; discriminate).
    + eauto using extends_trans.
    + intros c Hc. now apply (extends_after_header m).
Qed.

Lemma parse_or_err fmt o d e : parse_or fmt o d = Err e -> e = ValueError.
Proof.
  unfold parse_or. destruct o as [s|]; [|discriminate].
  destruct (String.eqb s ""); [discriminate|].
  destruct (strptime s fmt); [discriminate|]. congruence.
Qed.

Lemma parse_or_bad it o d : bad_date it o -> parse_or (date_format it) o d = Err ValueError.
Proof.
  destruct o as [s|]; [|contradiction]. intros [Hne Hp]. unfold parse_or.
  apply String.eqb_neq in Hne. now rewrite Hne, Hp.
Qed.

(** C8 (amended): a non-empty start or end date string that [strptime]
    cannot parse makes the constructor raise [ValueError], so the run
    stops before any traversal with every report file as it was. An
    empty date string is taken as an omitted bound: the run is the one
    with that bound omitted, so the default is used, and bounds that are
    each omitted or empty never make the constructor raise. *)
Theorem run_bad_date_untouched now_start now_end root sd ed it out exts so
    out_dir script_now (walk : list entry) (m : fs) :
  ((bad_date it sd \/ bad_date it ed) ->
   run now_start now_end root sd ed it out exts so out_dir script_now walk m
   = (Err ValueError, m)) /\
  run now_start now_end root (Some ""%string) ed it out exts so out_dir script_now walk m
  = run now_start now_end root None ed it out exts so out_dir script_now walk m /\
  run now_start now_end root sd (Some ""%string) it out exts so out_dir script_now walk m
  = run now_start now_end root sd None it out exts so out_dir script_now walk m /\
  ((sd = None \/ sd = Some ""%string) -> (ed = None \/ ed = Some ""%string) ->
   exists self, init now_start now_end root sd ed it out exts so = Ok self).
Proof.
  split; [|split; [reflexivity | split; [reflexivity|]]].
  - intros H. unfold run, init.
    destruct (parse_or (date_format it) sd _) eqn:Ps.
    + destruct H as [H|H]; [now rewrite (parse_or_bad it sd _ H) in Ps|].
      now rewrite (parse_or_bad it ed _ H).
    + apply parse_or_err in Ps. now subst.
  - intros Hs He. eexists. unfold init.
    destruct Hs as [->| ->], He as [->| ->]; reflexivity.
Qed.


Lemma extends_exists (m m' : fs) p : extends m m' -> fs_exists m p = true -> fs_exists m' p = true.
Proof.
  unfold fs_exists. intros E H. destruct (m p) as [c|] eqn:Hp; [|discriminate].
  destruct (E p c Hp) as (s & ->). reflexivity.
Qed.

Lemma write_header_exists (m : fs) p t : fs_exists (write_header m p t) p = true.
Proof.
  unfold write_header. destruct (negb (fs_exists m p)); unfold write_w, write_a, fs_exists;
    now rewrite fs_set_same.
Qed.

Lemma find_files_extends_all self out now walk m :
  extends m (snd (find_files self out now walk m)).
Proof.
  unfold find_files.
  pose proof (walker_extends self walk (py_join out "founded_table.txt")
                (write_header m (py_join out "founded_table.txt") (starting_text self now))) as E2.
  eapply extends_trans; [apply write_header_extends|].
  destruct (walker _ _ _ _) as [[[n fl]|er] m2]; cbn [snd] in E2 |- *; [|exact E2].
  eapply extends_trans; [exact E2|].
  destruct (f_sort_info self); [|apply extends_refl].
  destruct fl as [l|]; cbn [snd];
    (eapply extends_trans; [apply write_header_extends|]);
    (eapply extends_trans; [apply write_header_extends|]);
    [apply sorter_extends | apply extends_refl].
Qed.

Lemma find_files_primary_exists self out now walk m :
  fs_exists (snd (find_files self out now walk m)) (py_join out "founded_table.txt") = true.
Proof.
  unfold find_files.
  pose proof (walker_extends self walk (py_join out "founded_table.txt")
                (write_header m (py_join out "founded_table.txt") (starting_text self now))) as E2.
  destruct (walker _ _ _ _) as [[[n fl]|er] m2]; cbn [snd] in E2 |- *;
    [|exact (extends_exists _ _ _ E2 (write_header_exists _ _ _))].
  assert (X2 : fs_exists m2 (py_join out "founded_table.txt") = true)
    by exact (extends_exists _ _ _ E2 (write_header_exists _ _ _)).
  destruct (f_sort_info self); [|exact X2].
  eapply extends_exists; [|exact X2].
  destruct fl as [l|]; cbn [snd];
    (eapply extends_trans; [apply write_header_extends|]);
    (eapply extends_trans; [apply write_header_extends|]);
    [apply sorter_extends | apply extends_refl].
Qed.

(** ** Further properties of the walk and of [find_files] *)


(** A file that has vanished when the walk reaches it (line 120) is
    skipped silently, with or without a filter: the walk behaves as if it
    had not been listed. *)
Theorem walker_skips_vanished (self : finder) (es1 es2 : list entry) (e : entry)
    (wf : string) (m : fs) :
  e_exists e = false ->
  walker self (es1 ++ e :: es2) wf m = walker self (es1 ++ es2) wf m.
Proof.
  intros He. unfold walker. rewrite walk_loop_skip by (left; exact He). reflexivity.
Qed.

(** A walk in which no listed file still exists (an empty folder, say)
    finishes with count 0 and writes nothing, even without a filter. *)
Theorem walker_only_vanished (self : finder) (walk : list entry) (wf : string) (m : fs) :
  forallb (fun e => negb (e_exists e)) walk = true ->
  walker self walk wf m = (Ok (0%nat, if f_sort_info self then Some [] else None), m).
Proof.
  intros H. unfold walker. now rewrite walk_loop_vanished.
Qed.

(** With a configured filter, a window whose upper bound is not after
    its lower bound (for instance an end date before the start date)
    matches nothing: the walk counts 0 and writes nothing. *)
Theorem walker_empty_window (self : finder) (exts : list string) (walk : list entry)
    (wf : string) (m : fs) :
  f_extensions self = Some exts ->
  timestamp (f_end_date self) <= timestamp (f_start_date self) ->
  walker self walk wf m = (Ok (0%nat, if f_sort_info self then Some [] else None), m).
Proof.
  intros Hx Hw. unfold walker.
  rewrite (walk_loop_exact self exts) by exact Hx.
  assert (F : filter (selected_at exts (timestamp (f_start_date self))
                        (timestamp (f_end_date self))) walk = []).
  { induction walk as [|e walk IH]; [reflexivity|]. cbn [filter].
    rewrite IH. unfold selected_at, date_match, in_window.
    destruct (timestamp (f_start_date self) <? e_mtime e) eqn:A1,
             (e_mtime e <? timestamp (f_end_date self)) eqn:A2,
             (timestamp (f_start_date self) <? e_ctime e) eqn:A3,
             (e_ctime e <? timestamp (f_end_date self)) eqn:A4,
             (timestamp (f_start_date self) <? e_atime e) eqn:A5,
             (e_atime e <? timestamp (f_end_date self)) eqn:A6;
      rewrite ?andb_false_r; try reflexivity;
      rewrite ?Z.ltb_lt in *; lia. }
  rewrite F. destruct (f_sort_info self); reflexivity.
Qed.

Lemma find_files_primary_contents (self : finder) (exts : list string) (out : string)
    (now : datetime) (walk : list entry) (m : fs) :
  f_extensions self = Some exts ->
  fst (find_files self out now walk m) = Ok (length (walk_matches self exts walk)) /\
  contents (snd (find_files self out now walk m)) (py_join out "founded_table.txt") =
    (contents m (py_join out "founded_table.txt") ++
     (if fs_exists m (py_join out "founded_table.txt") then sep3 else "") ++
     starting_text self now ++
     String.concat "" (map primary_line (map rec_of (walk_matches self exts walk))))%string.
Proof.
  intros Hx.
  assert (N1 : py_join out "founded_list_sorted.txt" <> py_join out "founded_table.txt")
    by (apply py_join_neq; [reflexivity | reflexivity | discriminate]).
  assert (N2 : py_join out "founded_table_sorted.txt" <> py_join out "founded_table.txt")
    by (apply py_join_neq; [reflexivity | reflexivity | discriminate]).
  unfold find_files, walker, walk_matches.
  rewrite (walk_loop_exact self exts) by exact Hx. cbn [fst snd].
  set (recs := map rec_of _).
  set (wt := py_join out "founded_table.txt") in *.
  assert (Hc : contents (append_lines (write_header m wt (starting_text self now)) wt recs) wt
               = (contents m wt ++ (if fs_exists m wt then sep3 else "") ++
                  starting_text self now ++ String.concat "" (map primary_line recs))%string).
  { rewrite contents_append_lines, contents_write_header. now rewrite <- !str_app_assoc. }
  destruct (f_sort_info self); cbn [fst snd]; split; try reflexivity; [|exact Hc].
  rewrite <- Hc. apply contents_eq_at.
  rewrite sorter_other by (apply not_eq_sym; assumption).
  rewrite !write_header_other by (apply not_eq_sym; assumption). reflexivity.
Qed.

(** With a configured filter, [find_files] returns the number of matches
    and the primary report ends with the separator (if it existed), the
    run header and one line per match, in walk order. With no match the
    report gets the header alone. *)
Theorem find_files_primary_report (self : finder) (exts : list string) (out : string)
    (now : datetime) (walk : list entry) (m : fs) :
  f_extensions self = Some exts ->
  fst (find_files self out now walk m) = Ok (length (walk_matches self exts walk)) /\
  contents (snd (find_files self out now walk m)) (py_join out "founded_table.txt") =
    (contents m (py_join out "founded_table.txt") ++
     (if fs_exists m (py_join out "founded_table.txt") then sep3 else "") ++
     starting_text self now ++
     String.concat "" (map primary_line (map rec_of (walk_matches self exts walk))))%string.
Proof.
  intros Hx. exact (find_files_primary_contents self exts out now walk m Hx).
Qed.

Lemma find_files_sorted_contents (self : finder) (exts : list string) (out : string)
    (now : datetime) (walk : list entry) (m : fs) :
  f_extensions self = Some exts ->
  f_sort_info self = true ->
  contents (snd (find_files self out now walk m)) (py_join out "founded_list_sorted.txt") =
    (contents m (py_join out "founded_list_sorted.txt") ++
     (if fs_exists m (py_join out "founded_list_sorted.txt") then sep3 else "") ++
     list_header self now ++
     String.concat nl (map list_info (sort_recs (map rec_of (walk_matches self exts walk))))
     ++ nl ++ nl)%string /\
  contents (snd (find_files self out now walk m)) (py_join out "founded_table_sorted.txt") =
    (contents m (py_join out "founded_table_sorted.txt") ++
     (if fs_exists m (py_join out "founded_table_sorted.txt") then sep3 else "") ++
     starting_text self now ++
     String.concat nl (map table_info (sort_recs (map rec_of (walk_matches self exts walk)))))%string.
Proof.
  intros Hx Hs.
  assert (N1 : py_join out "founded_list_sorted.txt" <> py_join out "founded_table.txt")
    by (apply py_join_neq; [reflexivity | reflexivity | discriminate]).
  assert (N2 : py_join out "founded_table_sorted.txt" <> py_join out "founded_table.txt")
    by (apply py_join_neq; [reflexivity | reflexivity | discriminate]).
  assert (N3 : py_join out "founded_table_sorted.txt" <> py_join out "founded_list_sorted.txt")
    by (apply py_join_neq; [reflexivity | reflexivity | discriminate]).
  unfold find_files, walker, walk_matches.
  rewrite (walk_loop_exact self exts) by exact Hx. rewrite Hs. cbn [fst snd].
  set (recs := map rec_of _).
  set (wt := py_join out "founded_table.txt") in *.
  set (wls := py_join out "founded_list_sorted.txt") in *.
  set (wts := py_join out "founded_table_sorted.txt") in *.
  set (m2 := append_lines (write_header m wt (starting_text self now)) wt recs).
  assert (E2 : forall q, q <> wt -> m2 q = m q).
  { intros q Hq. unfold m2. rewrite append_lines_other by exact Hq.
    now apply write_header_other. }
  split.
  - rewrite contents_sorter_list by (apply not_eq_sym; exact N3).
    rewrite (contents_eq_at (write_header m2 wls (list_header self now)))
      by (apply write_header_other; exact (not_eq_sym N3)).
    rewrite contents_write_header, (contents_eq_at m m2 wls (E2 wls N1)),
      (fs_exists_eq_at m m2 wls (E2 wls N1)).
    now rewrite <- !str_app_assoc.
  - rewrite contents_sorter_table by (apply not_eq_sym; exact N3).
    rewrite contents_write_header.
    rewrite (fs_exists_eq_at m2 (write_header m2 wls (list_header self now)) wts)
      by (apply write_header_other; exact N3).
    rewrite (contents_eq_at m2 (write_header m2 wls (list_header self now)) wts)
      by (apply write_header_other; exact N3).
    rewrite (contents_eq_at m m2 wts (E2 wts N2)), (fs_exists_eq_at m m2 wts (E2 wts N2)).
    now rewrite <- !str_app_assoc.
Qed.

(** With a configured filter and sorting on, each sorted report ends with
    the separator (if it existed), its header, and the renderings of
    exactly the records whose lines went to the primary report, in sort
    order. *)
Theorem find_files_sorted_reports (self : finder) (exts : list string) (out : string)
    (now : datetime) (walk : list entry) (m : fs) :
  f_extensions self = Some exts ->
  f_sort_info self = true ->
  contents (snd (find_files self out now walk m)) (py_join out "founded_list_sorted.txt") =
    (contents m (py_join out "founded_list_sorted.txt") ++
     (if fs_exists m (py_join out "founded_list_sorted.txt") then sep3 else "") ++
     list_header self now ++
     String.concat nl (map list_info (sort_recs (map rec_of (walk_matches self exts walk))))
     ++ nl ++ nl)%string /\
  contents (snd (find_files self out now walk m)) (py_join out "founded_table_sorted.txt") =
    (contents m (py_join out "founded_table_sorted.txt") ++
     (if fs_exists m (py_join out "founded_table_sorted.txt") then sep3 else "") ++
     starting_text self now ++
     String.concat nl (map table_info (sort_recs (map rec_of (walk_matches self exts walk)))))%string.
Proof.
  intros Hx Hs. exact (find_files_sorted_contents self exts out now walk m Hx Hs).
Qed.

(** [find_files] writes no file other than the primary report and, when
    sorting is on, the two sorted reports. *)
Theorem find_files_writes_only_reports (self : finder) (out : string) (now : datetime)
    (walk : list entry) (m : fs) (q : string) :
  q <> py_join out "founded_table.txt" ->
  (f_sort_info self = false \/
   (q <> py_join out "founded_list_sorted.txt" /\ q <> py_join out "founded_table_sorted.txt")) ->
  snd (find_files self out now walk m) q = m q.
Proof.
  intros Hq Hs. unfold find_files.
  pose proof (walker_other self walk (py_join out "founded_table.txt")
                (write_header m (py_join out "founded_table.txt") (starting_text self now)) q Hq)
    as O2.
  destruct (walker _ _ _ _) as [[[n fl]|er] m2]; cbn [fst snd] in O2 |- *.
  - rewrite <- (write_header_other m _ q (starting_text self now) Hq), <- O2.
    destruct (f_sort_info self) eqn:S; [|reflexivity].
    destruct Hs as [Hs|[H1 H2]]; [discriminate|].
    destruct fl as [l|]; cbn [snd]; [rewrite sorter_other by assumption|];
      rewrite !write_header_other by assumption; reflexivity.
  - rewrite O2. now apply write_header_other.
Qed.


(** The sorted list report gets the first three header lines of the run
    (start time, start date, end date) followed by one blank line: the
    column legend and its leading line break are cut off. *)
Theorem list_header_shape (self : finder) (now : datetime) :
  list_header self now =
  ("script started at: " ++ dt_str now ++ nl ++
   "start date: " ++ dt_str (f_start_date self) ++ nl ++
   "end date: " ++ dt_str (f_end_date self) ++ nl ++ nl)%string.
Proof.
  set (A := ("script started at: " ++ dt_str now ++ nl ++
             "start date: " ++ dt_str (f_start_date self) ++ nl ++
             "end date: " ++ dt_str (f_end_date self))%string).
  set (L := ("     file     |     modified     |" ++
             "     created     |     accessed" ++ nl)%string).
  assert (E : starting_text self now = (A ++ (nl ++ L))%string).
  { unfold starting_text, A, L. now rewrite <- !str_app_assoc. }
  unfold list_header. rewrite E.
  change 67%nat with (String.length (nl ++ L)).
  rewrite py_drop_last_app. unfold A. now rewrite <- !str_app_assoc.
Qed.

(** Normalising an already normalised extension changes nothing. *)
Theorem normalize_ext_idempotent (s : string) :
  normalize_ext (normalize_ext s) = normalize_ext s.
Proof.
  destruct (normalize_ext_shape s) as [H1 H2].
  unfold normalize_ext at 1. rewrite H1, H2. reflexivity.
Qed.

(** With a filter and sorting on, the count and both sorted reports do
    not depend on the order in which the folder walk lists the files. *)
Theorem find_files_sorted_order_independent (self : finder) (exts : list string)
    (out : string) (now : datetime) (w1 w2 : list entry) (m : fs) :
  f_extensions self = Some exts ->
  f_sort_info self = true ->
  Permutation w1 w2 ->
  fst (find_files self out now w1 m) = fst (find_files self out now w2 m) /\
  contents (snd (find_files self out now w1 m)) (py_join out "founded_list_sorted.txt")
  = contents (snd (find_files self out now w2 m)) (py_join out "founded_list_sorted.txt") /\
  contents (snd (find_files self out now w1 m)) (py_join out "founded_table_sorted.txt")
  = contents (snd (find_files self out now w2 m)) (py_join out "founded_table_sorted.txt").
Proof.
  intros Hx Hs P.
  assert (Q : Permutation (map rec_of (walk_matches self exts w1))
                          (map rec_of (walk_matches self exts w2)))
    by (unfold walk_matches; now apply perm_filter_map).
  assert (R : sort_recs (map rec_of (walk_matches self exts w1))
              = sort_recs (map rec_of (walk_matches self exts w2))).
  { apply sorted_perm_unique; try apply sort_recs_sorted.
    rewrite <- !sort_recs_perm. exact Q. }
  destruct (find_files_sorted_contents self exts out now w1 m Hx Hs) as [L1 T1].
  destruct (find_files_sorted_contents self exts out now w2 m Hx Hs) as [L2 T2].
  split; [|split].
  - unfold find_files, walker, walk_matches in *.
    rewrite !(walk_loop_exact self exts) by exact Hx. rewrite Hs. cbn [fst snd].
    apply Permutation_length in Q. rewrite !length_map in Q. now rewrite Q.
  - now rewrite L1, L2, R.
  - now rewrite T1, T2, R.
Qed.

(** After a run the primary report exists, even when the walk raised;
    after a run with sorting that returned a count, both sorted reports
    exist too. *)
Theorem find_files_leaves_reports (self : finder) (out : string) (now : datetime)
    (walk : list entry) (m : fs) :
  fs_exists (snd (find_files self out now walk m)) (py_join out "founded_table.txt") = true /\
  (forall n, f_sort_info self = true -> fst (find_files self out now walk m) = Ok n ->
   fs_exists (snd (find_files self out now walk m)) (py_join out "founded_list_sorted.txt") = true /\
   fs_exists (snd (find_files self out now walk m)) (py_join out "founded_table_sorted.txt") = true).
Proof.
  assert (N3 : py_join out "founded_table_sorted.txt" <> py_join out "founded_list_sorted.txt")
    by (apply py_join_neq; [reflexivity | reflexivity | discriminate]).
  split.
  - apply find_files_primary_exists.
  - intros n Hs. unfold find_files. rewrite Hs.
    destruct (walker _ _ _ _) as [[[k fl]|er] m2]; cbn [fst snd]; [|discriminate].
    destruct fl as [l|]; cbn [fst snd]; [|discriminate]. intros _.
    set (m3 := write_header m2 (py_join out "founded_list_sorted.txt") (list_header self now)).
    set (m4 := write_header m3 (py_join out "founded_table_sorted.txt") (starting_text self now)).
    split; eapply extends_exists; try apply sorter_extends.
    + unfold m4, fs_exists. rewrite write_header_other by exact (not_eq_sym N3).
      fold (fs_exists m3 (py_join out "founded_list_sorted.txt")). apply write_header_exists.
    + apply write_header_exists.
Qed.

(** Two runs with filters into the same output folder: the second run's
    header and lines follow the first run's report after one separator. *)
Theorem find_files_consecutive_runs (self1 self2 : finder) (exts1 exts2 : list string)
    (out : string) (now1 now2 : datetime) (walk1 walk2 : list entry) (m : fs) :
  f_extensions self1 = Some exts1 ->
  f_extensions self2 = Some exts2 ->
  contents (snd (find_files self2 out now2 walk2 (snd (find_files self1 out now1 walk1 m))))
    (py_join out "founded_table.txt") =
  (contents (snd (find_files self1 out now1 walk1 m)) (py_join out "founded_table.txt") ++
   sep3 ++ starting_text self2 now2 ++
   String.concat "" (map primary_line (map rec_of (walk_matches self2 exts2 walk2))))%string.
Proof.
  intros H1 H2.
  destruct (find_files_primary_contents self2 exts2 out now2 walk2
              (snd (find_files self1 out now1 walk1 m)) H2) as [_ ->].
  rewrite find_files_primary_exists. reflexivity.
Qed.

End Finder.

Example t1 : splitext_ext "a/b.TXT" = ".TXT"%string. Proof. reflexivity. Qed.
Example t2 : splitext_ext "dir/.bashrc" = ""%string. Proof. reflexivity. Qed.
Example t3 : splitext_ext "a.b/c" = ""%string. Proof. reflexivity. Qed.
Example t4 : splitext_ext "x/..a.b.c" = ".c"%string. Proof. reflexivity. Qed.
Example t5 : normalize_ext "TXT" = ".txt"%string. Proof. reflexivity. Qed.
Example t6 : normalize_ext ".Md" = ".md"%string. Proof. reflexivity. Qed.
Example t7 : py_join "/home/u" "founded_table.txt" = "/home/u/founded_table.txt"%string. Proof. reflexivity. Qed.
Example t8 : py_join "/" "x" = "/x"%string. Proof. reflexivity. Qed.
Example t9 : String.length ("     file     |     modified     |" ++ "     created     |     accessed" ++ nl)%string = 66%nat. Proof. reflexivity. Qed.

(** ** Witnesses and counterexamples *)

Local Open Scope string_scope.

Lemma walker_date_window_open_witness :
  f_extensions (sample_finder false (Some [".txt"%string])) = Some [".txt"%string] /\
  e_exists sample_entry = true /\
  ext_accepted [".txt"%string] (py_lower (splitext_ext (e_path sample_entry))) = true /\
  (((sample_timestamp (f_start_date (sample_finder false (Some [".txt"%string]))) < e_mtime sample_entry
       < sample_timestamp (f_end_date (sample_finder false (Some [".txt"%string]))) \/
     sample_timestamp (f_start_date (sample_finder false (Some [".txt"%string]))) < e_ctime sample_entry
       < sample_timestamp (f_end_date (sample_finder false (Some [".txt"%string]))) \/
     sample_timestamp (f_start_date (sample_finder false (Some [".txt"%string]))) < e_atime sample_entry
       < sample_timestamp (f_end_date (sample_finder false (Some [".txt"%string])))) ->
    walker sample_timestamp sample_ctime (sample_finder false (Some [".txt"%string]))
      ([mkEntry "docs/b.txt" true 0 0 86400] ++ sample_entry :: []) "t" empty_fs =
    (Ok (S (length (walk_matches sample_timestamp (sample_finder false (Some [".txt"%string]))
                      [".txt"%string] ([mkEntry "docs/b.txt" true 0 0 86400] ++ []))),
         if f_sort_info (sample_finder false (Some [".txt"%string]))
         then Some (map rec_of (walk_matches sample_timestamp
                                  (sample_finder false (Some [".txt"%string])) [".txt"%string]
                                  [mkEntry "docs/b.txt" true 0 0 86400] ++
                                sample_entry :: walk_matches sample_timestamp
                                  (sample_finder false (Some [".txt"%string])) [".txt"%string] []))
         else None),
     append_lines sample_ctime empty_fs "t"
       (map rec_of (walk_matches sample_timestamp (sample_finder false (Some [".txt"%string]))
                      [".txt"%string] [mkEntry "docs/b.txt" true 0 0 86400] ++
                    sample_entry :: walk_matches sample_timestamp
                      (sample_finder false (Some [".txt"%string])) [".txt"%string] [])))) /\
   (~ (sample_timestamp (f_start_date (sample_finder false (Some [".txt"%string]))) < e_mtime sample_entry
         < sample_timestamp (f_end_date (sample_finder false (Some [".txt"%string]))) \/
       sample_timestamp (f_start_date (sample_finder false (Some [".txt"%string]))) < e_ctime sample_entry
         < sample_timestamp (f_end_date (sample_finder false (Some [".txt"%string]))) \/
       sample_timestamp (f_start_date (sample_finder false (Some [".txt"%string]))) < e_atime sample_entry
         < sample_timestamp (f_end_date (sample_finder false (Some [".txt"%string])))) ->
    walker sample_timestamp sample_ctime (sample_finder false (Some [".txt"%string]))
      ([mkEntry "docs/b.txt" true 0 0 86400] ++ sample_entry :: []) "t" empty_fs =
    walker sample_timestamp sample_ctime (sample_finder false (Some [".txt"%string]))
      ([mkEntry "docs/b.txt" true 0 0 86400] ++ []) "t" empty_fs)).
Proof.
  refine (conj eq_refl (conj eq_refl (conj eq_refl _))).
  apply (walker_date_window_open sample_strptime sample_timestamp sample_ctime
           (sample_finder false (Some [".txt"%string])) [".txt"%string]); reflexivity.
Defined.

(** A timestamp equal to the lower bound is not counted. *)
Example boundary_excluded :
  walker_count (walker sample_timestamp sample_ctime
                  (sample_finder false (Some [".txt"%string]))
                  [mkEntry "docs/a.txt" true 0 0 86400] "t" empty_fs) = Some 0%nat.
Proof. reflexivity. Qed.

Lemma run_without_filter_raises_witness :
  (@None (list string) = None \/ @None (list string) = Some []) /\
  fst (run sample_strptime sample_timestamp sample_ctime sample_dt_str
         sample_now sample_now None None None false None None false "/out"
         sample_now [sample_entry] empty_fs) = Err AttributeError.
Proof.
  split; [now left|].
  apply (run_without_filter_raises sample_strptime sample_timestamp sample_ctime
           sample_dt_str sample_now sample_now None false None None false "/out"
           sample_now "docs/a.txt" 100 0 0 [] empty_fs).
  now left.
Defined.

Lemma init_default_bounds_witness :
  exists self,
    init sample_strptime sample_now sample_now None None None false None None false
      = Ok self /\
    f_end_date self = replace_hms sample_now 23 59 59.
Proof.
  eexists. split; [reflexivity|].
  apply (init_default_bounds sample_strptime sample_now sample_now None None None
           false None None false); reflexivity.
Defined.

(** C4 as stated fails: with [include_time] unset the omitted upper bound
    is not now (10:30:00) but 23:59:59 of the same day. *)
Lemma init_default_upper_not_now :
  exists self,
    init sample_strptime sample_now sample_now None None None false None None false
      = Ok self /\ f_end_date self <> sample_now.
Proof.
  eexists. split; [reflexivity|]. unfold sample_now. simpl. discriminate.
Defined.

Example sample_recs_sorted :
  map r_path (sort_recs sample_recs) = ["c"; "d"; "a"; "b"]%string.
Proof. reflexivity. Qed.

Lemma sorter_key_order_witness :
  "l"%string <> "t"%string /\
  contents (sorter sample_ctime "l" "t" sample_recs empty_fs) "t" =
    (contents empty_fs "t" ++
     String.concat nl (map (table_info sample_ctime) (sort_recs sample_recs)))%string.
Proof.
  split; [discriminate|].
  apply (sorter_key_order sample_ctime "l" "t" sample_recs empty_fs). discriminate.
Defined.

Lemma sorted_table_fields_swapped_witness :
  "l" <> "t" /\
  (forall t1 t2, String.length (sample_ctime t1) = String.length (sample_ctime t2)) /\
  contents (sorter sample_ctime "l" "t" [mkRec "docs/a.txt" 100 200 300] empty_fs) "t"
    = (contents empty_fs "t" ++
       String.concat nl (map (table_info sample_ctime)
                           (sort_recs [mkRec "docs/a.txt" 100 200 300])))%string /\
  (forall r, table_info sample_ctime r = table_info_spec sample_ctime r <->
             sample_ctime (r_ctime r) = sample_ctime (r_mtime r)).
Proof.
  assert (Hw : forall t1 t2, String.length (sample_ctime t1) = String.length (sample_ctime t2))
    by (intros t1 t2; unfold sample_ctime; destruct (Z.eqb t1 100), (Z.eqb t2 100); reflexivity).
  split; [discriminate|]. split; [exact Hw|].
  apply (sorted_table_fields_swapped sample_ctime); [discriminate | exact Hw].
Defined.

(** At mtime=100, ctime=200 the sorted table shows the creation time's
    rendering under [mtime=], unlike the specified line. *)
Example sorted_table_bug_at_100_200 :
  contents (sorter sample_ctime "l" "t" [mkRec "docs/a.txt" 100 200 300] empty_fs) "t"
    = "file=docs/a.txt   |   mtime=B   |   ctime=A   |   atime=B" /\
  table_info_spec sample_ctime (mkRec "docs/a.txt" 100 200 300)
    = "file=docs/a.txt   |   mtime=A   |   ctime=B   |   atime=B".
Proof. split; reflexivity. Qed.

Lemma find_files_append_only_witness :
  exists s,
    snd (find_files sample_timestamp sample_ctime sample_dt_str
           (sample_finder false (Some [".txt"%string])) "/out" sample_now
           [sample_entry] fs_with_table) "/out/founded_table.txt"
    = Some ("old run" ++ sep3 ++
            starting_text sample_dt_str (sample_finder false (Some [".txt"%string]))
              sample_now ++ s)%string.
Proof.
  apply (proj1 (proj2 (find_files_append_only sample_timestamp sample_ctime
           sample_dt_str (sample_finder false (Some [".txt"%string])) "/out"
           sample_now [sample_entry] fs_with_table))).
  reflexivity.
Defined.

Lemma walker_count_and_list_witness :
  exists recs, length recs = 1%nat /\
    Some [rec_of sample_entry] = (if true then Some recs else None) /\
    contents (snd (walker sample_timestamp sample_ctime
                    (sample_finder true (Some [".txt"%string])) [sample_entry]
                    "t" empty_fs)) "t"
    = (contents empty_fs "t" ++
       String.concat "" (map (primary_line sample_ctime) recs))%string.
Proof.
  apply (walker_count_and_list sample_timestamp sample_ctime
           (sample_finder true (Some [".txt"%string])) [sample_entry] "t" empty_fs
           (snd (walker sample_timestamp sample_ctime
                   (sample_finder true (Some [".txt"%string])) [sample_entry]
                   "t" empty_fs))).
  reflexivity.
Defined.

Lemma run_bad_date_untouched_witness :
  (bad_date sample_strptime false (Some "2022-13-40"%string) \/
   bad_date sample_strptime false None) /\
  run sample_strptime sample_timestamp sample_ctime sample_dt_str sample_now sample_now
    None (Some "2022-13-40"%string) None false None None false "/out" sample_now
    [sample_entry] fs_with_table = (Err ValueError, fs_with_table).
Proof.
  assert (H : bad_date sample_strptime false (Some "2022-13-40"%string) \/
              bad_date sample_strptime false None)
    by (left; split; [discriminate | reflexivity]).
  split; [exact H|].
  apply (proj1 (run_bad_date_untouched sample_strptime sample_timestamp sample_ctime
           sample_dt_str sample_now sample_now None (Some "2022-13-40"%string) None false
           None None false "/out" sample_now [sample_entry] fs_with_table)).
  exact H.
Defined.

(** C8 as stated fails: the empty string does not parse, yet the
    constructor takes it as an omitted bound and the run writes its
    report. *)
Lemma run_empty_date_string_no_error :
  sample_strptime "" (date_format false) = None /\
  fst (run sample_strptime sample_timestamp sample_ctime sample_dt_str sample_now
         sample_now None (Some ""%string) None false None (Some [".txt"%string]) false
         "/out" sample_now [] empty_fs) = Ok 0%nat /\
  snd (run sample_strptime sample_timestamp sample_ctime sample_dt_str sample_now
         sample_now None (Some ""%string) None false None (Some [".txt"%string]) false
         "/out" sample_now [] empty_fs) "/out/founded_table.txt" <> None.
Proof. split; [reflexivity | split; [reflexivity | discriminate]]. Defined.



Lemma walker_skips_no_extension_witness :
  exists self,
    init sample_strptime sample_now sample_now None None None false None
      (Some ["md"%string]) false = Ok self /\
    walker sample_timestamp sample_ctime self
      ([] ++ mkEntry "docs/README" true 100 100 100 :: [sample_entry])%list "t" empty_fs
    = walker sample_timestamp sample_ctime self ([] ++ [sample_entry])%list "t" empty_fs.
Proof.
  eexists. split; [reflexivity|].
  apply (walker_skips_no_extension sample_strptime sample_timestamp sample_ctime
           sample_now sample_now None None None false None ["md"%string] false).
  - reflexivity.
  - discriminate.
  - reflexivity.
Defined.

(** ** Witnesses of the further properties *)


Lemma walker_skips_vanished_witness :
  e_exists (mkEntry "gone.txt" false 100 0 0) = false /\
  walker sample_timestamp sample_ctime (sample_finder true (Some [".txt"]))
    ([sample_entry] ++ mkEntry "gone.txt" false 100 0 0 :: [mkEntry "docs/b.txt" true 0 100 0])%list
    "t" empty_fs =
  walker sample_timestamp sample_ctime (sample_finder true (Some [".txt"]))
    ([sample_entry] ++ [mkEntry "docs/b.txt" true 0 100 0])%list "t" empty_fs.
Proof.
  split; [reflexivity|].
  apply (walker_skips_vanished sample_timestamp sample_ctime); reflexivity.
Defined.

Lemma walker_only_vanished_witness :
  forallb (fun e => negb (e_exists e)) [mkEntry "gone.txt" false 100 0 0] = true /\
  walker sample_timestamp sample_ctime (sample_finder true None)
    [mkEntry "gone.txt" false 100 0 0] "t" empty_fs =
  (Ok (0%nat, if f_sort_info (sample_finder true None) then Some [] else None), empty_fs).
Proof.
  split; [reflexivity|].
  apply (walker_only_vanished sample_timestamp sample_ctime); reflexivity.
Defined.

Lemma walker_empty_window_witness :
  f_extensions sample_reversed_finder = Some [".txt"] /\
  sample_timestamp (f_end_date sample_reversed_finder)
    <= sample_timestamp (f_start_date sample_reversed_finder) /\
  walker sample_timestamp sample_ctime
    sample_reversed_finder
    [sample_entry] "t" fs_with_table =
  (Ok (0%nat, if f_sort_info sample_reversed_finder then Some [] else None), fs_with_table).
Proof.
  split; [reflexivity|]. split; [unfold sample_timestamp; simpl; lia|].
  apply (walker_empty_window sample_timestamp sample_ctime _ [".txt"]);
    [reflexivity | unfold sample_timestamp; simpl; lia].
Defined.

Lemma find_files_primary_report_witness :
  f_extensions (sample_finder false (Some [".txt"])) = Some [".txt"] /\
  fst (find_files sample_timestamp sample_ctime sample_dt_str
         (sample_finder false (Some [".txt"])) "/out" sample_now [sample_entry] fs_with_table)
  = Ok (length (walk_matches sample_timestamp (sample_finder false (Some [".txt"]))
                  [".txt"] [sample_entry])) /\
  contents (snd (find_files sample_timestamp sample_ctime sample_dt_str
                   (sample_finder false (Some [".txt"])) "/out" sample_now [sample_entry]
                   fs_with_table)) (py_join "/out" "founded_table.txt") =
    contents fs_with_table (py_join "/out" "founded_table.txt") ++
    (if fs_exists fs_with_table (py_join "/out" "founded_table.txt") then sep3 else "") ++
    starting_text sample_dt_str (sample_finder false (Some [".txt"])) sample_now ++
    String.concat "" (map (primary_line sample_ctime)
      (map rec_of (walk_matches sample_timestamp (sample_finder false (Some [".txt"]))
                     [".txt"] [sample_entry]))).
Proof.
  split; [reflexivity|].
  apply (find_files_primary_report sample_timestamp sample_ctime sample_dt_str); reflexivity.
Defined.

Lemma find_files_sorted_reports_witness :
  f_extensions (sample_finder true (Some [".txt"])) = Some [".txt"] /\
  f_sort_info (sample_finder true (Some [".txt"])) = true /\
  contents (snd (find_files sample_timestamp sample_ctime sample_dt_str
                   (sample_finder true (Some [".txt"])) "/out" sample_now [sample_entry]
                   empty_fs)) (py_join "/out" "founded_list_sorted.txt") =
    contents empty_fs (py_join "/out" "founded_list_sorted.txt") ++
    (if fs_exists empty_fs (py_join "/out" "founded_list_sorted.txt") then sep3 else "") ++
    list_header sample_dt_str (sample_finder true (Some [".txt"])) sample_now ++
    String.concat nl (map (list_info sample_ctime)
      (sort_recs (map rec_of (walk_matches sample_timestamp
                                (sample_finder true (Some [".txt"])) [".txt"] [sample_entry]))))
    ++ nl ++ nl /\
  contents (snd (find_files sample_timestamp sample_ctime sample_dt_str
                   (sample_finder true (Some [".txt"])) "/out" sample_now [sample_entry]
                   empty_fs)) (py_join "/out" "founded_table_sorted.txt") =
    contents empty_fs (py_join "/out" "founded_table_sorted.txt") ++
    (if fs_exists empty_fs (py_join "/out" "founded_table_sorted.txt") then sep3 else "") ++
    starting_text sample_dt_str (sample_finder true (Some [".txt"])) sample_now ++
    String.concat nl (map (table_info sample_ctime)
      (sort_recs (map rec_of (walk_matches sample_timestamp
                                (sample_finder true (Some [".txt"])) [".txt"] [sample_entry])))).
Proof.
  split; [reflexivity|]. split; [reflexivity|].
  apply (find_files_sorted_reports sample_timestamp sample_ctime sample_dt_str); reflexivity.
Defined.

Lemma find_files_writes_only_reports_witness :
  "/out/other.txt" <> py_join "/out" "founded_table.txt" /\
  (f_sort_info (sample_finder false None) = false \/
   ("/out/other.txt" <> py_join "/out" "founded_list_sorted.txt" /\
    "/out/other.txt" <> py_join "/out" "founded_table_sorted.txt")) /\
  snd (find_files sample_timestamp sample_ctime sample_dt_str (sample_finder false None)
         "/out" sample_now [sample_entry] empty_fs) "/out/other.txt" = empty_fs "/out/other.txt".
Proof.
  split; [vm_compute; discriminate|]. split; [left; reflexivity|].
  apply (find_files_writes_only_reports sample_timestamp sample_ctime sample_dt_str);
    [vm_compute; discriminate | left; reflexivity].
Defined.


Lemma find_files_sorted_order_independent_witness :
  f_extensions (sample_finder true (Some [".txt"])) = Some [".txt"] /\
  f_sort_info (sample_finder true (Some [".txt"])) = true /\
  Permutation [sample_entry; mkEntry "b.TXT" true 100 5 0]
              [mkEntry "b.TXT" true 100 5 0; sample_entry] /\
  (fst (find_files sample_timestamp sample_ctime sample_dt_str
          (sample_finder true (Some [".txt"])) "/out" sample_now
          [sample_entry; mkEntry "b.TXT" true 100 5 0] empty_fs)
   = fst (find_files sample_timestamp sample_ctime sample_dt_str
            (sample_finder true (Some [".txt"])) "/out" sample_now
            [mkEntry "b.TXT" true 100 5 0; sample_entry] empty_fs) /\
   contents (snd (find_files sample_timestamp sample_ctime sample_dt_str
                    (sample_finder true (Some [".txt"])) "/out" sample_now
                    [sample_entry; mkEntry "b.TXT" true 100 5 0] empty_fs))
     (py_join "/out" "founded_list_sorted.txt")
   = contents (snd (find_files sample_timestamp sample_ctime sample_dt_str
                      (sample_finder true (Some [".txt"])) "/out" sample_now
                      [mkEntry "b.TXT" true 100 5 0; sample_entry] empty_fs))
       (py_join "/out" "founded_list_sorted.txt") /\
   contents (snd (find_files sample_timestamp sample_ctime sample_dt_str
                    (sample_finder true (Some [".txt"])) "/out" sample_now
                    [sample_entry; mkEntry "b.TXT" true 100 5 0] empty_fs))
     (py_join "/out" "founded_table_sorted.txt")
   = contents (snd (find_files sample_timestamp sample_ctime sample_dt_str
                      (sample_finder true (Some [".txt"])) "/out" sample_now
                      [mkEntry "b.TXT" true 100 5 0; sample_entry] empty_fs))
       (py_join "/out" "founded_table_sorted.txt")).
Proof.
  split; [reflexivity|]. split; [reflexivity|]. split; [apply perm_swap|].
  apply (find_files_sorted_order_independent sample_timestamp sample_ctime sample_dt_str _
           [".txt"]); [reflexivity | reflexivity | apply perm_swap].
Defined.

Lemma find_files_consecutive_runs_witness :
  f_extensions (sample_finder false (Some [".txt"])) = Some [".txt"] /\
  f_extensions (sample_finder true (Some ["md"])) = Some ["md"] /\
  contents (snd (find_files sample_timestamp sample_ctime sample_dt_str
                   (sample_finder true (Some ["md"])) "/out" sample_now []
                   (snd (find_files sample_timestamp sample_ctime sample_dt_str
                           (sample_finder false (Some [".txt"])) "/out" sample_now
                           [sample_entry] empty_fs))))
    (py_join "/out" "founded_table.txt") =
  contents (snd (find_files sample_timestamp sample_ctime sample_dt_str
                   (sample_finder false (Some [".txt"])) "/out" sample_now
                   [sample_entry] empty_fs)) (py_join "/out" "founded_table.txt") ++
  sep3 ++ starting_text sample_dt_str (sample_finder true (Some ["md"])) sample_now ++
  String.concat "" (map (primary_line sample_ctime)
    (map rec_of (walk_matches sample_timestamp (sample_finder true (Some ["md"])) ["md"] []))).
Proof.
  split; [reflexivity|]. split; [reflexivity|].
  apply (find_files_consecutive_runs sample_timestamp sample_ctime sample_dt_str _ _
           [".txt"] ["md"]); reflexivity.
Defined.
